(** * Placeholder-icon generator: [extension/create_simple_icons.py]

    A shallow embedding of the script and of the part of its runtime that
    the script touches: Python values and exceptions, binary64
    multiplication (for [int(size * 0.6)]), Pillow images, glyph masks and
    the text-drawing call, and a file system with a standard output.

    What lives outside the repository is kept apart from the script:
    - the font engine, the built-in default font and the image encoder are
      fields of a [Pillow] record, over which every statement quantifies;
    - whether saving to a path fails, what a failed save leaves behind and
      what a search of the system font directories finds are read from the
      [World].
    Memory is unbounded: [Image.new] never fails for lack of room. The
    measuring and drawing calls accept every font, the default one too.
    The system font directories are apart from the output directory. *)

From Stdlib Require Import ZArith Lia Bool String Ascii List Floats.
From Stdlib.Strings Require Import Byte.
From stdpp Require Import base gmap list strings.

Open Scope string_scope.
Open Scope Z_scope.

(** ** Python values, exceptions and results *)

(** The values a caller may pass for [size]: an [int], or, standing for
    what is not a number, a [str] or [None]. *)
Inductive value : Type :=
  | VInt (n : Z)
  | VStr (s : string)
  | VNone.

Inductive exn : Type :=
  | OSError (what : string)
  | ValueError (what : string)
  | TypeError (what : string)
  | OverflowError (what : string).

Inductive result (A : Type) : Type :=
  | Ok (a : A)
  | Raise (e : exn).

Arguments Ok {A} a.
Arguments Raise {A} e.

Definition rbind {A B : Type} (r : result A) (k : A -> result B) : result B :=
  match r with
  | Ok a => k a
  | Raise e => Raise e
  end.

(** ** Binary64 arithmetic, as far as [int(size * 0.6)] needs it

    A positive finite double is written [m * 2^e] with [m] an integer of at
    most 53 bits (54 after a carry, which denotes the same number). *)

(** Round to nearest, ties to even, dropping the low [s >= 1] bits of [P]. *)
Definition round_even (P s : Z) : Z :=
  let q := Z.shiftr P s in
  let r := Z.land P (Z.ones s) in
  let half := Z.shiftl 1 (s - 1) in
  if r <? half then q
  else if half <? r then q + 1
  else if Z.even q then q else q + 1.

(** [round53 P = (m, s)]: the double nearest to the positive integer [P] is
    [m * 2^s]. *)
Definition round53 (P : Z) : Z * Z :=
  let bits := Z.log2 P + 1 in
  if bits <=? 53 then (P, 0)
  else let s := bits - 53 in (round_even P s, s).

(** The literal [0.6] is the double [dbl_06 * 2^-53]. *)
Definition dbl_06 : Z := 5404319552844595.

(** [float(n)] for [n > 0]: [PyLong_AsDouble] rounds to nearest and raises
    when the result does not fit. *)
Definition float_of_pos (n : Z) : result (Z * Z) :=
  let '(m, s) := round53 n in
  if Z.shiftl 1 1024 <=? Z.shiftl m s
  then Raise (OverflowError "int too large to convert to float")
  else Ok (m, s).

(** [int(n * 0.6)] for [n > 0]: the product of the two significands is
    rounded to 53 bits, then [int] drops the fraction. *)
Definition int_mul_06_pos (n : Z) : result Z :=
  rbind (float_of_pos n) (fun '(m1, s1) =>
    let '(m2, s2) := round53 (m1 * dbl_06) in
    Ok (Z.shiftl m2 (s2 + s1 - 53))).

(** [int(size * 0.6)], line 12. *)
Definition font_size_of (size : value) : result Z :=
  match size with
  | VInt n =>
      if n =? 0 then Ok 0
      else if 0 <? n then int_mul_06_pos n
      else rbind (int_mul_06_pos (- n)) (fun k => Ok (- k))
  | VStr _ => Raise (TypeError "can't multiply sequence by non-int of type 'float'")
  | VNone => Raise (TypeError "unsupported operand type(s) for *: 'NoneType' and 'float'")
  end.

(** The same product on the kernel's binary64 unit, for cross-checking
    ([0 <= n < 2^63]). *)
Definition hw_int_mul_06 (n : Z) : Z :=
  match Prim2SF (PrimFloat.mul (PrimFloat.of_uint63 (Uint63.of_Z n))
                               0x1.3333333333333p-1%float) with
  | S754_finite _ m e => Z.shiftl (Zpos m) e
  | _ => 0
  end.

(** [size - text_width], lines 23 and 24. *)
Definition py_sub (size : value) (k : Z) : result Z :=
  match size with
  | VInt n => Ok (n - k)
  | VStr _ => Raise (TypeError "unsupported operand type(s) for -: 'str' and 'int'")
  | VNone => Raise (TypeError "unsupported operand type(s) for -: 'NoneType' and 'int'")
  end.

(** ** Pillow: colours, images, glyph masks, fonts *)

Definition color : Type := Z * Z * Z.

Definition hex_digit (c : ascii) : option Z :=
  let n := Z.of_N (N_of_ascii c) in
  if (48 <=? n) && (n <=? 57) then Some (n - 48)
  else if (97 <=? n) && (n <=? 102) then Some (n - 87)
  else if (65 <=? n) && (n <=? 70) then Some (n - 55)
  else None.

Definition hex_byte (a b : ascii) : option Z :=
  match hex_digit a, hex_digit b with
  | Some h, Some l => Some (16 * h + l)
  | _, _ => None
  end.

(** [ImageColor.getrgb] on the two colour strings of the script:
    a [#rrggbb] specifier and the name [white]. *)
Definition getrgb (spec : string) : result color :=
  match spec with
  | String "#" (String r1 (String r2 (String g1 (String g2
      (String b1 (String b2 EmptyString)))))) =>
      match hex_byte r1 r2, hex_byte g1 g2, hex_byte b1 b2 with
      | Some r, Some g, Some b => Ok (r, g, b)
      | _, _, _ => Raise (ValueError "unknown color specifier")
      end
  | "white" => Ok (255, 255, 255)
  | _ => Raise (ValueError "unknown color specifier")
  end.

(** An RGB image: its size and its rows of pixels, top row first. *)
Record Image : Type := mkImage {
  im_width : Z;
  im_height : Z;
  im_rows : list (list color)
}.

(** What [v < 0] raises when [v] is no number. *)
Definition not_comparable (v : value) : exn :=
  match v with
  | VNone => TypeError "'<' not supported between instances of 'NoneType' and 'int'"
  | _ => TypeError "'<' not supported between instances of 'str' and 'int'"
  end.

(** [Image.new('RGB', (w, h), c)]: the size check of [Image.new], which
    evaluates [w < 0 or h < 0], then a canvas on which every pixel is [c].
    No size is too large: what the platform cannot allocate is not turned
    away here. *)
Definition Image_new (w h : value) (c : string) : result Image :=
  match w, h with
  | VInt w, VInt h =>
      if (w <? 0) || (h <? 0)
      then Raise (ValueError "Width and height must be >= 0")
      else rbind (getrgb c) (fun px =>
             Ok (mkImage w h (replicate (Z.to_nat h) (replicate (Z.to_nat w) px))))
  | VInt w, other =>
      if w <? 0 then Raise (ValueError "Width and height must be >= 0")
      else Raise (not_comparable other)
  | other, _ => Raise (not_comparable other)
  end.

(** An image without pixels. *)
Definition is_empty (im : Image) : bool :=
  (im_width im <=? 0) || (im_height im <=? 0).

Definition getpixel (im : Image) (x y : Z) : option color :=
  if (0 <=? x) && (x <? im_width im) && (0 <=? y) && (y <? im_height im)
  then row ← im_rows im !! Z.to_nat y; row !! Z.to_nat x
  else None.

(** A glyph mask as the font engine returns it: a [mk_width] by
    [mk_height] grid of coverage values, 0 (no ink) to 255 (full ink). *)
Record Mask : Type := mkMask {
  mk_width : Z;
  mk_height : Z;
  mk_rows : list (list Z)
}.

(** Coverage at column [i], row [j] of the mask; nothing outside its grid. *)
Definition coverage (m : Mask) (i j : Z) : Z :=
  if (0 <=? i) && (i <? mk_width m) && (0 <=? j) && (j <? mk_height m)
  then default 0 (row ← mk_rows m !! Z.to_nat j; row !! Z.to_nat i)
  else 0.

(** A font at a fixed pixel size: for a text, its mask and the offset of
    the mask's top-left corner from the drawing anchor ([getmask2]). *)
Record Font : Type := mkFont {
  getmask2 : string -> Mask * (Z * Z)
}.

Definition bbox : Type := Z * Z * Z * Z.

(** [font.getbbox(text)]: left, top, right, bottom of the mask, relative
    to the anchor. *)
Definition getbbox (font : Font) (text : string) : bbox :=
  let '(m, (ox, oy)) := getmask2 font text in
  (ox, oy, ox + mk_width m, oy + mk_height m).

(** [draw.textbbox(xy, text, font=font)]. *)
Definition textbbox (xy : Z * Z) (text : string) (font : Font) : bbox :=
  let '(l, t, r, b) := getbbox font text in
  (l + fst xy, t + snd xy, r + fst xy, b + snd xy).

(** One channel of Pillow's [BLEND(mask, in1, in2)]:
    [DIV255(in1 * (255 - mask) + in2 * mask)]. *)
Definition blend (a old ink : Z) : Z :=
  let tmp := old * (255 - a) + ink * a + 128 in
  Z.shiftr (Z.shiftr tmp 8 + tmp) 8.

Definition blend_px (a : Z) (old ink : color) : color :=
  let '(r0, g0, b0) := old in
  let '(r1, g1, b1) := ink in
  (blend a r0 r1, blend a g0 g1, blend a b0 b1).

(** Whether pixel ([x], [y]) lies under a mask placed with its corner at
    ([cx], [cy]). *)
Definition under_mask (m : Mask) (cx cy x y : Z) : bool :=
  (cx <=? x) && (x <? cx + mk_width m) && (cy <=? y) && (y <? cy + mk_height m).

(** [draw_bitmap(coord, mask, ink)]: every pixel of the image that lies
    under the mask is blended with the ink by the mask's coverage; the part
    of the mask that falls off the image is clipped. *)
Definition draw_bitmap (im : Image) (coord : Z * Z) (m : Mask) (ink : color) : Image :=
  let '(cx, cy) := coord in
  mkImage (im_width im) (im_height im)
    (imap (fun j row =>
       imap (fun i px =>
         let x := Z.of_nat i in
         let y := Z.of_nat j in
         if under_mask m cx cy x y
         then blend_px (coverage m (x - cx) (y - cy)) px ink
         else px) row) (im_rows im)).

(** [draw.text(xy, text, fill=fill, font=font)] on the image [im]. *)
Definition draw_text (im : Image) (xy : Z * Z) (text fill : string) (font : Font)
  : result Image :=
  rbind (getrgb fill) (fun ink =>
    let '(m, (ox, oy)) := getmask2 font text in
    Ok (draw_bitmap im (fst xy + ox, snd xy + oy) m ink)).

(** ** The world outside: font engine, encoder, files, standard output *)

(** What Pillow brings along and the script only calls: the FreeType
    engine (font file contents and pixel size to a sized font, or an
    error), the built-in default font, the encoder, which picks the
    format by the file name (PNG for the three names of the script), and
    the exception with which it refuses an image without pixels. *)
Record Pillow : Type := mkPillow {
  ft_load : list byte -> Z -> result Font;
  default_font : Font;
  encode : string -> Image -> list byte;
  empty_error : exn
}.

(** Files by path. For a file name, the contents of the file of that
    name that a search of the system font directories comes upon first, if
    any. The error, if any, that saving to a path raises (no such
    directory, no permission, a name whose extension is no format for the
    image, no room left). What a save that fails leaves at the path, given
    what was there: the same when it failed before the file was opened,
    else an emptied or partly written file, or none. The error, if any,
    that creating a directory raises. The lines printed so far. Paths are
    plain strings. *)
Record World : Type := mkWorld {
  files : gmap string (list byte);
  font_search : string -> option (list byte);
  wr_fault : string -> option exn;
  wr_after : string -> option (list byte) -> option (list byte);
  mkdir_fault : string -> option exn;
  stdout : list string
}.

(** Computations that read and change the world and may raise. *)
Definition M (A : Type) : Type := World -> result A * World.

Definition ret {A : Type} (a : A) : M A := fun w => (Ok a, w).

Definition raise {A : Type} (e : exn) : M A := fun w => (Raise e, w).

Definition bind {A B : Type} (c : M A) (k : A -> M B) : M B :=
  fun w =>
    match c w with
    | (Ok a, w') => k a w'
    | (Raise e, w') => (Raise e, w')
    end.

Definition lift {A : Type} (r : result A) : M A := fun w => (r, w).

(** [try: body  except: handler], with a bare [except]. *)
Definition try_except {A : Type} (body handler : M A) : M A :=
  fun w =>
    match body w with
    | (Ok a, w') => (Ok a, w')
    | (Raise _, w') => handler w'
    end.

Declare Scope py_scope.
Delimit Scope py_scope with py.
Notation "x <- c ;; k" := (bind c (fun x => k))
  (at level 100, c at next level, right associativity) : py_scope.
Notation "c ;; k" := (bind c (fun _ => k))
  (at level 100, right associativity) : py_scope.
Open Scope py_scope.

(** [os.path.basename]: what follows the last slash. *)
Fixpoint basename_from (s acc : string) : string :=
  match s with
  | EmptyString => acc
  | String c rest =>
      if Ascii.eqb c "/" then basename_from rest EmptyString
      else basename_from rest (acc +:+ String c EmptyString)
  end.

Definition basename (path : string) : string := basename_from path EmptyString.

(** The font engine on the file at a path, if there is one. *)
Definition freetype (P : Pillow) (data : option (list byte)) (size : Z) : result Font :=
  match data with
  | Some bytes => ft_load P bytes size
  | None => Raise (OSError "cannot open resource")
  end.

(** [ImageFont.truetype(path, size)]: the file at the path; when that
    raises an OSError, the file of the same name found in the system font
    directories; when there is none, the OSError again. *)
Definition truetype (P : Pillow) (path : string) (size : Z) : M Font :=
  fun w =>
    match freetype P (files w !! path) size with
    | Raise (OSError what) =>
        match font_search w (basename path) with
        | Some bytes => (ft_load P bytes size, w)
        | None => (Raise (OSError what), w)
        end
    | r => (r, w)
    end.

(** [ImageFont.load_default()]. *)
Definition load_default (P : Pillow) : M Font := ret (default_font P).

(** The world a failed save to [path] leaves: only the file at [path] may
    have changed. *)
Definition spoiled (w : World) (path : string) : World :=
  mkWorld (partial_alter (wr_after w path) path (files w))
          (font_search w) (wr_fault w) (wr_after w) (mkdir_fault w) (stdout w).

(** [img.save(path)]: the save may fail for the path's sake, and it fails
    for an image without pixels; otherwise the encoded image replaces
    whatever the path held. *)
Definition save (P : Pillow) (im : Image) (path : string) : M unit :=
  fun w =>
    match wr_fault w path with
    | Some e => (Raise e, spoiled w path)
    | None =>
        if is_empty im then (Raise (empty_error P), spoiled w path)
        else
          (Ok tt, mkWorld (<[path := encode P path im]> (files w))
                          (font_search w) (wr_fault w) (wr_after w)
                          (mkdir_fault w) (stdout w))
    end.

Definition print (line : string) : M unit :=
  fun w => (Ok tt, mkWorld (files w) (font_search w) (wr_fault w) (wr_after w)
                           (mkdir_fault w) (stdout w ++ [line])).

(** [os.makedirs(path, exist_ok=True)]; the directory tree itself is not
    modelled, its absence shows as a [wr_fault]. *)
Definition makedirs (path : string) : M unit :=
  fun w =>
    match mkdir_fault w path with
    | Some e => (Raise e, w)
    | None => (Ok tt, w)
    end.

(** ** The script *)

Definition font_path : string := "/System/Library/Fonts/Arial.ttf".
Definition icons_dir : string := "/Users/maciejorlowski/lumos/extension/icons".

(** The path of the f-string on line 29. *)
Definition icon_path (filename : string) : string :=
  icons_dir +:+ "/" +:+ filename.

(** Lines 11 to 15: the [try] block and its bare [except]. *)
Definition try_body (P : Pillow) (size : value) : M Font :=
  font_size <- lift (font_size_of size) ;;
  truetype P font_path font_size.

Definition select_font (P : Pillow) (size : value) : M Font :=
  try_except (try_body P size) (load_default P).

Definition create_icon (P : Pillow) (size : value) (filename : string) : M unit :=
  img <- lift (Image_new size size "#667eea") ;;
  font <- select_font P size ;;
  let text := "L" in
  let '(b0, b1, b2, b3) := textbbox (0, 0) text font in
  let text_width := b2 - b0 in
  let text_height := b3 - b1 in
  dx <- lift (py_sub size text_width) ;;
  let x := dx / 2 in
  dy <- lift (py_sub size text_height) ;;
  let y := dy / 2 in
  img <- lift (draw_text img (x, y) text "white" font) ;;
  save P img (icon_path filename) ;;
  print ("Created " +:+ filename).

(** Lines 33 to 40. *)
Definition main (P : Pillow) : M unit :=
  makedirs icons_dir ;;
  create_icon P (VInt 16) "icon16.png" ;;
  create_icon P (VInt 48) "icon48.png" ;;
  create_icon P (VInt 128) "icon128.png" ;;
  print "All icons created successfully!".

(** ** Names for what one call computes

    These restate, as functions of the size and of the font in use, the
    values that [create_icon] passes from line to line; [create_icon_run]
    below proves that they are the values of the code. *)

Definition background : color := (102, 126, 234).
Definition white : color := (255, 255, 255).

(** The canvas of line 7 for an integer size. *)
Definition canvas (n : Z) : Image :=
  mkImage n n (replicate (Z.to_nat n) (replicate (Z.to_nat n) background)).

(** The font that lines 11 to 15 leave in [font]. *)
Definition chosen_font (P : Pillow) (w : World) (size : value) : Font :=
  match select_font P size w with
  | (Ok font, _) => font
  | (Raise _, _) => default_font P
  end.

Definition text_width (font : Font) : Z :=
  let '(b0, _, b2, _) := textbbox (0, 0) "L" font in b2 - b0.

Definition text_height (font : Font) : Z :=
  let '(_, b1, _, b3) := textbbox (0, 0) "L" font in b3 - b1.

(** The pair ([x], [y]) of lines 23 and 24. *)
Definition anchor (n : Z) (font : Font) : Z * Z :=
  ((n - text_width font) / 2, (n - text_height font) / 2).

(** The image that line 26 leaves in [img]. *)
Definition icon (n : Z) (font : Font) : Image :=
  let '(m, (ox, oy)) := getmask2 font "L" in
  draw_bitmap (canvas n) (fst (anchor n font) + ox, snd (anchor n font) + oy) m white.

(** Coverage that the text drawn at anchor [xy] puts on pixel ([px], [py]). *)
Definition glyph_coverage (font : Font) (text : string) (xy : Z * Z) (px py : Z) : Z :=
  let '(m, (ox, oy)) := getmask2 font text in
  coverage m (px - (fst xy + ox)) (py - (snd xy + oy)).

(** Whether the glyph puts ink on pixel ([x], [y]) of the icon. *)
Definition inked (n : Z) (font : Font) (x y : Z) : bool :=
  negb (glyph_coverage font "L" (anchor n font) x y =? 0).



Definition ink_box (n : Z) (font : Font) : bbox :=
  textbbox (anchor n font) "L" font.


(** The bytes a call of [create_icon] writes. *)
Definition icon_file (P : Pillow) (w : World) (n : Z) (filename : string) : list byte :=
  encode P (icon_path filename) (icon n (chosen_font P w (VInt n))).

(** The world after a call that returned: one file written, one line printed. *)
Definition wrote (P : Pillow) (w : World) (n : Z) (filename : string) : World :=
  mkWorld (<[icon_path filename := icon_file P w n filename]> (files w))
          (font_search w) (wr_fault w) (wr_after w) (mkdir_fault w)
          (stdout w ++ ["Created " +:+ filename]).

(** The first line of [main] that raises in world [w], if any, as the
    faults of [w] decide it: 0 for [makedirs], 1 to 3 for the calls. *)
Definition first_fault (w : World) : option (nat * exn) :=
  match mkdir_fault w icons_dir with
  | Some e => Some (0%nat, e)
  | None =>
    match wr_fault w (icon_path "icon16.png") with
    | Some e => Some (1%nat, e)
    | None =>
      match wr_fault w (icon_path "icon48.png") with
      | Some e => Some (2%nat, e)
      | None =>
        match wr_fault w (icon_path "icon128.png") with
        | Some e => Some (3%nat, e)
        | None => None
        end
      end
    end
  end.

(** The world after a run of the script that raised nowhere. *)
Definition finished (P : Pillow) (w : World) : World :=
  let w3 := wrote P (wrote P (wrote P w 16 "icon16.png") 48 "icon48.png")
                  128 "icon128.png" in
  mkWorld (files w3) (font_search w3) (wr_fault w3) (wr_after w3) (mkdir_fault w3)
          (stdout w3 ++ ["All icons created successfully!"]).

Definition well_sized (im : Image) : Prop :=
  Z.of_nat (length (im_rows im)) = im_height im /\
  Forall (fun row => Z.of_nat (length row) = im_width im) (im_rows im).

(** 60% of the edge length rounded to the nearest integer, as the
    description of step 2 words it (0.6 n is never half way). *)
Definition rounded_60_percent (n : Z) : Z := (6 * n + 5) / 10.

(** ** Sample fonts, libraries and worlds *)

(** A crude letter L: a stem one pixel wide and a foot, [w] by [h]. *)
Definition block_L (w h : nat) : Mask :=
  mkMask (Z.of_nat w) (Z.of_nat h)
    (replicate (h - 1) (255 :: replicate (w - 1) 0) ++ [replicate w 255]).

Definition sample_scalable (size : Z) : Font :=
  mkFont (fun _ => (block_L (Z.to_nat (size / 2)) (Z.to_nat size), (1, size / 4))).

Definition sample_default : Font :=
  mkFont (fun _ => (block_L 5 8, (0, 3))).

(** A default font far larger than any icon. *)
Definition sample_huge : Font :=
  mkFont (fun _ => (block_L 20 30, (2, 5))).

Definition sample_encode (path : string) (im : Image) : list byte :=
  let b (z : Z) : byte := default x00 (Byte.of_N (Z.to_N (z mod 256))) in
  b (im_width im) :: b (im_height im) ::
  concat (map (fun row => concat (map (fun '(r, g, bl) => [b r; b g; b bl]) row))
              (im_rows im)).

Definition sample_engine (data : list byte) (size : Z) : result Font :=
  match data with
  | [] => Raise (OSError "unknown file format")
  | _ => if size <=? 0 then Raise (ValueError "font size must be greater than 0")
         else Ok (sample_scalable size)
  end.

Definition sample_pillow : Pillow :=
  mkPillow sample_engine sample_default sample_encode
           (ValueError "cannot write empty image as PNG").
Definition huge_pillow : Pillow :=
  mkPillow sample_engine sample_huge sample_encode
           (ValueError "cannot write empty image as PNG").

(** No font file, nothing forbidden. *)
Definition bare_world : World :=
  mkWorld ∅ (fun _ => None) (fun _ => None) (fun _ old => old) (fun _ => None) [].

(** The font file is there. *)
Definition font_world : World :=
  mkWorld {[ font_path := [x00; x01; x00; x00] ]} (fun _ => None) (fun _ => None)
          (fun _ old => old) (fun _ => None) [].

(** No font file either, but another file and earlier output. *)
Definition used_world : World :=
  mkWorld {[ "/tmp/notes.txt" := [x41; x0a] ]} (fun _ => None) (fun _ => None)
          (fun _ old => old) (fun _ => None) ["earlier output"].

(** The second icon cannot be written. *)
Definition locked_world : World :=
  mkWorld ∅ (fun _ => None)
    (fun p => if String.eqb p (icon_path "icon48.png")
              then Some (OSError "Permission denied") else None)
    (fun _ old => old) (fun _ => None) [].

(** The second icon is there from an earlier run and there is no room to
    write it again: the save opens the file, fails and leaves it empty. *)
Definition full_world : World :=
  mkWorld {[ icon_path "icon48.png" := [x89; x50; x4e; x47] ]} (fun _ => None)
    (fun p => if String.eqb p (icon_path "icon48.png")
              then Some (OSError "No space left on device") else None)
    (fun _ _ => Some []) (fun _ => None) [].

(** No file at the fixed path, but a font of that name further down the
    system font directories. *)
Definition searched_world : World :=
  mkWorld ∅
    (fun name => if String.eqb name "Arial.ttf" then Some [x00; x01; x00; x00] else None)
    (fun _ => None) (fun _ old => old) (fun _ => None) [].

(** ** Names for what the script does in sequence *)

(** The three calls of lines 36 to 38. *)
Definition script_calls : list (Z * string) :=
  [(16, "icon16.png"); (48, "icon48.png"); (128, "icon128.png")].

(** The files once the given calls, made from world [w], have returned. *)
Definition files_after (P : Pillow) (w : World) (calls : list (Z * string))
  : gmap string (list byte) :=
  fold_left (fun fs '(n, filename) => <[icon_path filename := icon_file P w n filename]> fs)
            calls (files w).

(** The status lines of the given calls. *)
Definition lines_after (calls : list (Z * string)) : list string :=
  map (fun '(_, filename) => "Created " +:+ filename) calls.

(** Every coverage value stored in the mask is a byte. *)
Definition mask_ok (m : Mask) : bool :=
  forallb (forallb (fun a => (0 <=? a) && (a <=? 255))) (mk_rows m).

(** ** Basic facts about the runtime model *)

Lemma div255_id (v : Z) :
  0 <= v <= 255 -> ((255 * v + 128) / 256 + (255 * v + 128)) / 256 = v.
Proof. intros H. Z.div_mod_to_equations. lia. Qed.

Lemma blend_zero (old ink : Z) : 0 <= old <= 255 -> blend 0 old ink = old.
Proof.
  intros H. unfold blend. rewrite !Z.shiftr_div_pow2 by lia.
  change (2 ^ 8) with 256.
  replace (old * (255 - 0) + ink * 0 + 128) with (255 * old + 128) by lia.
  apply div255_id, H.
Qed.

Lemma blend_full (old ink : Z) : 0 <= ink <= 255 -> blend 255 old ink = ink.
Proof.
  intros H. unfold blend. rewrite !Z.shiftr_div_pow2 by lia.
  change (2 ^ 8) with 256.
  replace (old * (255 - 255) + ink * 255 + 128) with (255 * ink + 128) by lia.
  apply div255_id, H.
Qed.

Lemma blend_px_zero_background (ink : color) : blend_px 0 background ink = background.
Proof.
  destruct ink as [[r g] b]. unfold blend_px, background.
  rewrite !blend_zero by lia. reflexivity.
Qed.

Lemma blend_px_full_white (old : color) : blend_px 255 old white = white.
Proof.
  destruct old as [[r g] b]. unfold blend_px, white.
  rewrite !blend_full by lia. reflexivity.
Qed.

Lemma getpixel_canvas (n x y : Z) :
  0 <= x < n -> 0 <= y < n -> getpixel (canvas n) x y = Some background.
Proof.
  intros Hx Hy. unfold getpixel, canvas. simpl.
  replace ((0 <=? x) && (x <? n) && (0 <=? y) && (y <? n)) with true
    by (symmetry; rewrite !andb_true_iff; repeat split; lia).
  rewrite lookup_replicate_2 by lia. simpl.
  apply lookup_replicate_2. lia.
Qed.

Lemma getpixel_outside (im : Image) (x y : Z) :
  ~ (0 <= x < im_width im /\ 0 <= y < im_height im) -> getpixel im x y = None.
Proof.
  intros H. unfold getpixel.
  destruct ((0 <=? x) && (x <? im_width im) && (0 <=? y) && (y <? im_height im)) eqn:E;
    [| reflexivity].
  rewrite !andb_true_iff in E. exfalso. apply H. lia.
Qed.

Lemma getpixel_draw_bitmap (im : Image) (cx cy : Z) (m : Mask) (ink : color) (x y : Z) :
  getpixel (draw_bitmap im (cx, cy) m ink) x y =
  (fun px => if under_mask m cx cy x y
             then blend_px (coverage m (x - cx) (y - cy)) px ink
             else px) <$> getpixel im x y.
Proof.
  unfold getpixel, draw_bitmap. simpl.
  destruct ((0 <=? x) && (x <? im_width im) && (0 <=? y) && (y <? im_height im)) eqn:E;
    [| reflexivity].
  rewrite !andb_true_iff in E.
  rewrite list_lookup_imap.
  destruct (im_rows im !! Z.to_nat y) as [row |]; [| reflexivity]. simpl.
  rewrite list_lookup_imap.
  rewrite !Z2Nat.id by lia. reflexivity.
Qed.

Lemma coverage_outside (m : Mask) (i j : Z) :
  ~ (0 <= i < mk_width m /\ 0 <= j < mk_height m) -> coverage m i j = 0.
Proof.
  intros H. unfold coverage.
  destruct ((0 <=? i) && (i <? mk_width m) && (0 <=? j) && (j <? mk_height m)) eqn:E;
    [| reflexivity].
  rewrite !andb_true_iff in E. exfalso. apply H. lia.
Qed.

Lemma under_mask_spec (m : Mask) (cx cy x y : Z) :
  under_mask m cx cy x y = true <->
  (0 <= x - cx < mk_width m /\ 0 <= y - cy < mk_height m).
Proof. unfold under_mask. rewrite !andb_true_iff. lia. Qed.

Lemma draw_bitmap_size (im : Image) (c : Z * Z) (m : Mask) (ink : color) :
  im_width (draw_bitmap im c m ink) = im_width im /\
  im_height (draw_bitmap im c m ink) = im_height im.
Proof. destruct c. split; reflexivity. Qed.

Lemma draw_bitmap_well_sized (im : Image) (c : Z * Z) (m : Mask) (ink : color) :
  well_sized im -> well_sized (draw_bitmap im c m ink).
Proof.
  destruct c as [cx cy]. intros [Hh Hw]. split; simpl.
  - rewrite length_imap. exact Hh.
  - rewrite Forall_lookup in Hw. apply Forall_lookup. intros j row Hj.
    rewrite list_lookup_imap in Hj.
    destruct (im_rows im !! j) as [row0 |] eqn:E; simpl in Hj; [| discriminate].
    injection Hj as <-. rewrite length_imap. exact (Hw j row0 E).
Qed.

Lemma canvas_well_sized (n : Z) : 0 <= n -> well_sized (canvas n).
Proof.
  intros Hn. split; simpl.
  - rewrite length_replicate. lia.
  - apply Forall_replicate. rewrite length_replicate. lia.
Qed.

Lemma Image_new_canvas (n : Z) :
  0 <= n -> Image_new (VInt n) (VInt n) "#667eea" = Ok (canvas n).
Proof.
  intros Hn. unfold Image_new.
  replace (n <? 0) with false by (symmetry; apply Z.ltb_ge; lia).
  reflexivity.
Qed.

Lemma truetype_keeps_world (P : Pillow) (path : string) (k : Z) (w : World) :
  snd (truetype P path k w) = w.
Proof.
  unfold truetype.
  destruct (freetype P (files w !! path) k) as [font | []]; try reflexivity.
  destruct (font_search w (basename path)); reflexivity.
Qed.

Lemma truetype_same (P : Pillow) (path : string) (k : Z) (w1 w2 : World) :
  files w1 !! path = files w2 !! path ->
  font_search w1 (basename path) = font_search w2 (basename path) ->
  fst (truetype P path k w1) = fst (truetype P path k w2).
Proof.
  intros Hf Hs. unfold truetype. rewrite Hf, Hs.
  destruct (freetype P (files w2 !! path) k) as [font | []]; try reflexivity.
  destruct (font_search w2 (basename path)); reflexivity.
Qed.

(** The [try] statement never raises and leaves the world alone. *)
Lemma select_font_total (P : Pillow) (size : value) (w : World) :
  select_font P size w = (Ok (chosen_font P w size), w).
Proof.
  unfold chosen_font, select_font, try_except, try_body, bind, lift,
    load_default, ret.
  destruct (font_size_of size) as [k | e]; [| reflexivity].
  pose proof (truetype_keeps_world P font_path k w) as Hw.
  destruct (truetype P font_path k w) as [[font | e] w1];
    simpl in Hw; subst w1; reflexivity.
Qed.

(** What one call does for an integer size: draw [icon], save it, report. *)
Lemma create_icon_run (P : Pillow) (n : Z) (filename : string) (w : World) :
  0 <= n ->
  create_icon P (VInt n) filename w =
  (save P (icon n (chosen_font P w (VInt n))) (icon_path filename) ;;
   print ("Created " +:+ filename)) w.
Proof.
  intros Hn. unfold create_icon.
  unfold bind at 1. unfold lift at 1. rewrite Image_new_canvas by exact Hn.
  unfold bind at 1. rewrite select_font_total.
  set (font := chosen_font P w (VInt n)).
  unfold icon, anchor, text_width, text_height, textbbox, getbbox, draw_text.
  destruct (getmask2 font "L") as [m [ox oy]]. simpl.
  reflexivity.
Qed.

(** ** Binary64: the product with 0.6, truncated *)

Lemma round_even_near (P s : Z) :
  0 <= P -> 1 <= s -> 2 * Z.abs (round_even P s * 2 ^ s - P) <= 2 ^ s.
Proof.
  intros HP Hs. unfold round_even.
  rewrite Z.shiftr_div_pow2, Z.land_ones, Z.shiftl_1_l by lia.
  assert (HT : 2 ^ s = 2 * 2 ^ (s - 1)).
  { rewrite <- Z.pow_succ_r by lia. f_equal. lia. }
  assert (Hh : 0 < 2 ^ (s - 1)) by (apply Z.pow_pos_nonneg; lia).
  pose proof (Z.div_mod P (2 ^ s) ltac:(lia)) as E.
  pose proof (Z.mod_pos_bound P (2 ^ s) ltac:(lia)) as B.
  set (q := P / 2 ^ s) in *. set (r := P mod 2 ^ s) in *.
  set (h := 2 ^ (s - 1)) in *.
  destruct (r <? h) eqn:E1; [apply Z.ltb_lt in E1; nia |].
  apply Z.ltb_ge in E1.
  destruct (h <? r) eqn:E2; [apply Z.ltb_lt in E2; nia |].
  apply Z.ltb_ge in E2.
  destruct (Z.even q); nia.
Qed.

Lemma trunc_core (n T X R C : Z) :
  0 < n < 2 ^ 50 -> 0 < T ->
  T * 2 ^ 52 <= n * dbl_06 < T * 2 ^ 53 ->
  2 * Z.abs (X - n * dbl_06) <= T ->
  X = R * T -> 2 ^ 53 = C * T ->
  (3 * n / 5) * 2 ^ 53 <= X < (3 * n / 5 + 1) * 2 ^ 53.
Proof.
  unfold dbl_06.
  change (2 ^ 50) with 1125899906842624.
  change (2 ^ 52) with 4503599627370496.
  change (2 ^ 53) with 9007199254740992.
  intros Hn HT HP HX EX EC.
  pose proof (Z.div_mod (3 * n) 5 ltac:(lia)) as E.
  pose proof (Z.mod_pos_bound (3 * n) 5 ltac:(lia)) as B.
  set (k := 3 * n / 5) in *. set (r := (3 * n) mod 5) in *.
  split; [| lia].
  destruct (Z.eq_dec r 0) as [Hr | Hr]; [| lia].
  (* 3n = 5k: n = 5j, k = 3j *)
  destruct (Z_lt_le_dec X (k * 9007199254740992)) as [Hlt | Hge]; [| exact Hge].
  exfalso.
  assert (HR : R <= k * C - 1) by nia.
  assert (X <= k * 9007199254740992 - T) by nia.
  lia.
Qed.

Lemma round53_small (n : Z) : 0 < n < 2 ^ 53 -> round53 n = (n, 0).
Proof.
  intros Hn. unfold round53.
  assert (Z.log2 n < 53) by (apply Z.log2_lt_pow2; lia).
  replace (Z.log2 n + 1 <=? 53) with true by (symmetry; apply Z.leb_le; lia).
  reflexivity.
Qed.

Lemma float_of_pos_exact (n : Z) : 0 < n < 2 ^ 53 -> float_of_pos n = Ok (n, 0).
Proof.
  intros Hn. unfold float_of_pos. rewrite round53_small by exact Hn.
  rewrite Z.shiftl_0_r, Z.shiftl_1_l.
  assert (2 ^ 53 <= 2 ^ 1024) by (apply Z.pow_le_mono_r; lia).
  replace (2 ^ 1024 <=? n) with false by (symmetry; apply Z.leb_gt; lia).
  reflexivity.
Qed.

Lemma int_mul_06_pos_trunc (n : Z) :
  0 < n < 2 ^ 50 -> int_mul_06_pos n = Ok (3 * n / 5).
Proof.
  intros Hn. unfold int_mul_06_pos.
  assert (2 ^ 50 <= 2 ^ 53) by (apply Z.pow_le_mono_r; lia).
  rewrite float_of_pos_exact by lia. simpl rbind.
  assert (HP : 0 < n * dbl_06) by (unfold dbl_06; lia).
  pose proof (Z.log2_spec (n * dbl_06) HP) as [Hlo Hhi].
  unfold round53.
  destruct (Z.log2 (n * dbl_06) + 1 <=? 53) eqn:Eb.
  - (* the product already fits 53 bits: only n = 1 *)
    apply Z.leb_le in Eb.
    assert (n * dbl_06 < 2 ^ 53).
    { eapply Z.lt_le_trans; [exact Hhi |]. apply Z.pow_le_mono_r; lia. }
    assert (n = 1) by (unfold dbl_06 in *; change (2 ^ 53) with 9007199254740992 in *; lia).
    subst n. reflexivity.
  - apply Z.leb_gt in Eb.
    set (s := Z.log2 (n * dbl_06) + 1 - 53) in *.
    assert (Hs1 : 1 <= s) by (unfold s; lia).
    assert (Hs2 : s <= 50).
    { assert (Z.log2 (n * dbl_06) < 103); [| unfold s; lia].
      apply Z.log2_lt_pow2; [exact HP |].
      change (2 ^ 103) with (2 ^ 50 * 2 ^ 53).
      unfold dbl_06. change (2 ^ 53) with 9007199254740992. lia. }
    pose proof (round_even_near (n * dbl_06) s ltac:(lia) Hs1) as Hnear.
    set (R := round_even (n * dbl_06) s) in *.
    assert (HT : 0 < 2 ^ s) by (apply Z.pow_pos_nonneg; lia).
    assert (HC : 0 < 2 ^ (53 - s)) by (apply Z.pow_pos_nonneg; lia).
    assert (EC : 2 ^ 53 = 2 ^ (53 - s) * 2 ^ s).
    { rewrite <- Z.pow_add_r by lia. f_equal. lia. }
    assert (Hrange : 2 ^ s * 2 ^ 52 <= n * dbl_06 < 2 ^ s * 2 ^ 53).
    { rewrite <- !Z.pow_add_r by lia.
      replace (s + 52) with (Z.log2 (n * dbl_06)) by (unfold s; lia).
      replace (s + 53) with (Z.succ (Z.log2 (n * dbl_06))) by (unfold s; lia).
      split; assumption. }
    pose proof (trunc_core n (2 ^ s) (R * 2 ^ s) R (2 ^ (53 - s))
                  Hn HT Hrange Hnear eq_refl EC) as [Hl Hu].
    replace (s + 0 - 53) with (- (53 - s)) by lia.
    rewrite Z.shiftl_opp_r, Z.shiftr_div_pow2 by lia.
    f_equal. symmetry. apply Z.div_unique with (r := R - (3 * n / 5) * 2 ^ (53 - s)).
    + left. rewrite EC in Hl, Hu. nia.
    + lia.
Qed.

Lemma font_size_of_trunc (n : Z) :
  0 < n < 2 ^ 50 -> font_size_of (VInt n) = Ok (3 * n / 5).
Proof.
  intros Hn. unfold font_size_of.
  replace (n =? 0) with false by (symmetry; apply Z.eqb_neq; lia).
  replace (0 <? n) with true by (symmetry; apply Z.ltb_lt; lia).
  apply int_mul_06_pos_trunc, Hn.
Qed.

(** On every size up to 4096 the model of [int(size * 0.6)] returns what
    the kernel's binary64 multiplication returns. *)
Lemma font_size_of_agrees_with_binary64 :
  forallb (fun k => match font_size_of (VInt (Z.of_nat k)) with
                    | Ok m => m =? hw_int_mul_06 (Z.of_nat k)
                    | Raise _ => false
                    end) (seq 0 4097) = true.
Proof. vm_compute. reflexivity. Qed.

Lemma basename_font_path : basename font_path = "Arial.ttf".
Proof. reflexivity. Qed.

(** With no file at the very path, the loader takes the font of that name
    that the search finds. *)
Lemma truetype_searches (P : Pillow) (path : string) (k : Z) (w : World)
    (bytes : list byte) :
  files w !! path = None -> font_search w (basename path) = Some bytes ->
  truetype P path k w = (ft_load P bytes k, w).
Proof. intros Hf Hs. unfold truetype. rewrite Hf. simpl. rewrite Hs. reflexivity. Qed.

(** ** Runs of [create_icon] and of the script *)

Lemma icon_path_not_font (filename : string) : icon_path filename <> font_path.
Proof. unfold icon_path, icons_dir, font_path. simpl. discriminate. Qed.

Lemma chosen_font_files (P : Pillow) (w1 w2 : World) (size : value) :
  files w1 !! font_path = files w2 !! font_path ->
  font_search w1 (basename font_path) = font_search w2 (basename font_path) ->
  chosen_font P w1 size = chosen_font P w2 size.
Proof.
  intros Hf Hs. unfold chosen_font, select_font, try_except, try_body, bind, lift,
    load_default, ret.
  destruct (font_size_of size) as [k | e]; [| reflexivity].
  pose proof (truetype_same P font_path k w1 w2 Hf Hs) as Hsame.
  destruct (truetype P font_path k w1) as [[f1 | e1] u1];
    destruct (truetype P font_path k w2) as [[f2 | e2] u2];
    simpl in Hsame; congruence.
Qed.

Lemma chosen_font_wrote (P : Pillow) (w : World) (n : Z) (filename : string) (size : value) :
  chosen_font P (wrote P w n filename) size = chosen_font P w size.
Proof.
  apply chosen_font_files; [| reflexivity]. unfold wrote. simpl.
  apply lookup_insert_ne, icon_path_not_font.
Qed.

Lemma icon_file_wrote (P : Pillow) (w : World) (n : Z) (filename : string)
    (m : Z) (other : string) :
  icon_file P (wrote P w n filename) m other = icon_file P w m other.
Proof. unfold icon_file. rewrite chosen_font_wrote. reflexivity. Qed.

Lemma icon_size (n : Z) (font : Font) :
  0 <= n ->
  im_width (icon n font) = n /\ im_height (icon n font) = n /\ well_sized (icon n font).
Proof.
  intros Hn. unfold icon. destruct (getmask2 font "L") as [m [ox oy]].
  repeat split; try reflexivity.
  - simpl. rewrite length_imap, length_replicate. lia.
  - apply draw_bitmap_well_sized, canvas_well_sized, Hn.
Qed.

Lemma icon_is_empty (n : Z) (font : Font) :
  0 <= n -> is_empty (icon n font) = (n =? 0).
Proof.
  intros Hn. unfold is_empty.
  destruct (icon_size n font Hn) as (-> & -> & _).
  destruct (Z.eqb_spec n 0) as [-> | Hne]; [reflexivity |].
  replace (n <=? 0) with false by (symmetry; apply Z.leb_gt; lia). reflexivity.
Qed.

Lemma create_icon_ok (P : Pillow) (n : Z) (filename : string) (w : World) :
  0 < n -> wr_fault w (icon_path filename) = None ->
  create_icon P (VInt n) filename w = (Ok tt, wrote P w n filename).
Proof.
  intros Hn Hw. rewrite create_icon_run by lia.
  unfold bind, save, print, wrote. rewrite Hw, icon_is_empty by lia.
  replace (n =? 0) with false by (symmetry; apply Z.eqb_neq; lia).
  reflexivity.
Qed.

Lemma create_icon_fail (P : Pillow) (n : Z) (filename : string) (w : World) (e : exn) :
  0 <= n -> wr_fault w (icon_path filename) = Some e ->
  create_icon P (VInt n) filename w = (Raise e, spoiled w (icon_path filename)).
Proof.
  intros Hn Hw. rewrite create_icon_run by exact Hn.
  unfold bind, save. rewrite Hw. reflexivity.
Qed.

Lemma create_icon_empty (P : Pillow) (filename : string) (w : World) :
  wr_fault w (icon_path filename) = None ->
  create_icon P (VInt 0) filename w =
    (Raise (empty_error P), spoiled w (icon_path filename)).
Proof.
  intros Hw. rewrite create_icon_run by lia.
  unfold bind, save. rewrite Hw, icon_is_empty by lia. reflexivity.
Qed.

Lemma getpixel_icon (n : Z) (font : Font) (x y : Z) :
  0 <= x < n -> 0 <= y < n ->
  getpixel (icon n font) x y =
  Some (let '(m, (ox, oy)) := getmask2 font "L" in
        if under_mask m (fst (anchor n font) + ox) (snd (anchor n font) + oy) x y
        then blend_px (glyph_coverage font "L" (anchor n font) x y) background white
        else background).
Proof.
  intros Hx Hy. unfold icon, glyph_coverage.
  destruct (getmask2 font "L") as [m [ox oy]].
  rewrite getpixel_draw_bitmap, getpixel_canvas by assumption. reflexivity.
Qed.


(** The script's outcome, by the first line that raises. *)
Lemma main_run (P : Pillow) (w : World) :
  main P w =
  match first_fault w with
  | Some (0%nat, e) => (Raise e, w)
  | Some (1%nat, e) => (Raise e, spoiled w (icon_path "icon16.png"))
  | Some (2%nat, e) =>
      (Raise e, spoiled (wrote P w 16 "icon16.png") (icon_path "icon48.png"))
  | Some (_, e) =>
      (Raise e, spoiled (wrote P (wrote P w 16 "icon16.png") 48 "icon48.png")
                        (icon_path "icon128.png"))
  | None =>
      print "All icons created successfully!"
        (wrote P (wrote P (wrote P w 16 "icon16.png") 48 "icon48.png")
               128 "icon128.png")
  end.
Proof.
  unfold main, first_fault.
  unfold bind at 1. unfold makedirs.
  destruct (mkdir_fault w icons_dir) as [e |]; [reflexivity |].
  unfold bind at 1.
  destruct (wr_fault w (icon_path "icon16.png")) as [e |] eqn:E1.
  { rewrite (create_icon_fail P 16 _ w e) by (lia || exact E1). reflexivity. }
  rewrite create_icon_ok by (lia || exact E1).
  set (w1 := wrote P w 16 "icon16.png").
  unfold bind at 1.
  destruct (wr_fault w (icon_path "icon48.png")) as [e |] eqn:E2.
  { rewrite (create_icon_fail P 48 _ w1 e) by (lia || exact E2). reflexivity. }
  rewrite create_icon_ok by (lia || exact E2).
  set (w2 := wrote P w1 48 "icon48.png").
  unfold bind at 1.
  destruct (wr_fault w (icon_path "icon128.png")) as [e |] eqn:E3.
  { rewrite (create_icon_fail P 128 _ w2 e) by (lia || exact E3). reflexivity. }
  rewrite create_icon_ok by (lia || exact E3).
  reflexivity.
Qed.

Lemma files_finished (P : Pillow) (w : World) :
  files (finished P w) =
  <[icon_path "icon128.png" := icon_file P w 128 "icon128.png"]>
    (<[icon_path "icon48.png" := icon_file P w 48 "icon48.png"]>
       (<[icon_path "icon16.png" := icon_file P w 16 "icon16.png"]>
          (files w))).
Proof.
  unfold finished. cbn [files wrote]. rewrite !icon_file_wrote. reflexivity.
Qed.

Lemma main_ok_inv (P : Pillow) (w w' : World) :
  main P w = (Ok tt, w') -> first_fault w = None /\ w' = finished P w.
Proof.
  rewrite main_run.
  destruct (first_fault w) as [[[| [| [| k]]] e] |]; try discriminate.
  intros [= <-]. split; reflexivity.
Qed.

Lemma main_ok (P : Pillow) (w : World) :
  first_fault w = None -> main P w = (Ok tt, finished P w).
Proof. intros H. rewrite main_run, H. reflexivity. Qed.

Lemma try_body_raises (P : Pillow) (size : value) (w : World) (e : exn) :
  fst (try_body P size w) = Raise e <->
  (font_size_of size = Raise e \/
   exists k, font_size_of size = Ok k /\ fst (truetype P font_path k w) = Raise e).
Proof.
  unfold try_body, bind, lift.
  destruct (font_size_of size) as [k | e0]; simpl.
  - destruct (truetype P font_path k w) as [[font | e1] w1] eqn:E; simpl; split.
    + discriminate.
    + intros [H | [k' [[= <-] H]]]; [discriminate H |]. rewrite E in H. exact H.
    + intros [= ->]. right. exists k. rewrite E. split; reflexivity.
    + intros [H | [k' [[= <-] H]]]; [discriminate H |]. rewrite E in H. exact H.
  - split.
    + intros [= ->]. left. reflexivity.
    + intros [[= ->] | [k [H _]]]; [reflexivity | discriminate H].
Qed.

Lemma chosen_font_default (P : Pillow) (size : value) (w : World) (e : exn) :
  fst (try_body P size w) = Raise e -> chosen_font P w size = default_font P.
Proof.
  intros H. unfold chosen_font, select_font, try_except, load_default, ret.
  destruct (try_body P size w) as [[font | e0] w1]; [discriminate H | reflexivity].
Qed.

(** ** The claims *)

(** C1. For a positive integer size, line 7 allocates a canvas of exactly
    size by size pixels, every one of them the colour #667eea, that is
    (102, 126, 234). The image the call goes on to save is the drawn-on
    canvas: it is still size by size, and every pixel on which the glyph
    puts no ink still has the background colour. This holds for every
    positive size, so for 16, 48 and 128. *)
Theorem canvas_square_and_background
    (P : Pillow) (w : World) (n : Z) (filename : string) :
  0 < n ->
  Image_new (VInt n) (VInt n) "#667eea" = Ok (canvas n) /\
  (im_width (canvas n) = n /\ im_height (canvas n) = n /\ well_sized (canvas n)) /\
  (forall x y, 0 <= x < n -> 0 <= y < n ->
     getpixel (canvas n) x y = Some (102, 126, 234)) /\
  (forall x y, ~ (0 <= x < n /\ 0 <= y < n) -> getpixel (canvas n) x y = None) /\
  create_icon P (VInt n) filename w =
    (save P (icon n (chosen_font P w (VInt n))) (icon_path filename) ;;
     print ("Created " +:+ filename)) w /\
  (im_width (icon n (chosen_font P w (VInt n))) = n /\
   im_height (icon n (chosen_font P w (VInt n))) = n /\
   well_sized (icon n (chosen_font P w (VInt n)))) /\
  (forall x y, 0 <= x < n -> 0 <= y < n ->
     inked n (chosen_font P w (VInt n)) x y = false ->
     getpixel (icon n (chosen_font P w (VInt n))) x y = Some (102, 126, 234)).
Proof.
  intros Hn. set (font := chosen_font P w (VInt n)).
  split; [apply Image_new_canvas; lia |].
  split; [repeat split; try reflexivity; apply canvas_well_sized; lia |].
  split; [intros x y Hx Hy; apply getpixel_canvas; assumption |].
  split; [intros x y H; apply getpixel_outside; exact H |].
  split; [apply create_icon_run; lia |].
  split; [apply icon_size; lia |].
  intros x y Hx Hy Hink. rewrite getpixel_icon by assumption.
  unfold inked in Hink. apply negb_false_iff, Z.eqb_eq in Hink. rewrite Hink.
  destruct (getmask2 font "L") as [m [ox oy]].
  rewrite blend_px_zero_background. destruct (under_mask _ _ _ _ _); reflexivity.
Qed.

(** C2. The call draws the one glyph "L" with fill white, (255, 255, 255),
    at the anchor ((size - text_width) // 2, (size - text_height) // 2),
    where text_width and text_height are the width and height of the box
    measured for "L" with the font in use; every pixel the glyph covers in
    full becomes exactly white. *)
Theorem glyph_drawn_white_at_offsets
    (P : Pillow) (w : World) (n : Z) (filename : string) (b0 b1 b2 b3 : Z) :
  0 < n ->
  textbbox (0, 0) "L" (chosen_font P w (VInt n)) = (b0, b1, b2, b3) ->
  exists img,
    draw_text (canvas n) ((n - (b2 - b0)) / 2, (n - (b3 - b1)) / 2) "L" "white"
              (chosen_font P w (VInt n)) = Ok img /\
    create_icon P (VInt n) filename w =
      (save P img (icon_path filename) ;; print ("Created " +:+ filename)) w /\
    getrgb "white" = Ok (255, 255, 255) /\
    (forall px py, 0 <= px < n -> 0 <= py < n ->
       glyph_coverage (chosen_font P w (VInt n)) "L"
         ((n - (b2 - b0)) / 2, (n - (b3 - b1)) / 2) px py = 255 ->
       getpixel img px py = Some (255, 255, 255)).
Proof.
  intros Hn Hbox. set (font := chosen_font P w (VInt n)) in *.
  assert (Ha : anchor n font = ((n - (b2 - b0)) / 2, (n - (b3 - b1)) / 2)).
  { unfold anchor, text_width, text_height. rewrite Hbox. reflexivity. }
  exists (icon n font). split; [| split; [| split]].
  - unfold draw_text, icon. rewrite Ha. simpl.
    destruct (getmask2 font "L") as [m [ox oy]]. reflexivity.
  - apply create_icon_run. lia.
  - reflexivity.
  - intros px py Hx Hy Hcov. rewrite getpixel_icon by assumption.
    rewrite Ha, Hcov. rewrite blend_px_full_white.
    unfold glyph_coverage in Hcov.
    destruct (getmask2 font "L") as [m [ox oy]].
    destruct (under_mask _ _ _ _ _) eqn:E; [reflexivity |].
    exfalso. rewrite coverage_outside in Hcov; [discriminate |].
    rewrite <- under_mask_spec, E. discriminate.
Qed.


(** C10. Nothing compares the size with the measured glyph: for every
    positive size the image saved is size by size whatever the glyph's box,
    the call returns normally whenever the file can be written, and a glyph
    wider (taller) than the canvas gets a negative x (y) from the floor
    division, so that some column (row) of it falls off the canvas. *)
Theorem no_clamping_of_oversized_glyph
    (P : Pillow) (w : World) (n : Z) (filename : string) :
  0 < n ->
  (im_width (icon n (chosen_font P w (VInt n))) = n /\
   im_height (icon n (chosen_font P w (VInt n))) = n) /\
  (wr_fault w (icon_path filename) = None ->
   exists w',
     create_icon P (VInt n) filename w = (Ok tt, w') /\
     files w' !! icon_path filename =
       Some (icon_file P w n filename)) /\
  (forall x y, anchor n (chosen_font P w (VInt n)) = (x, y) ->
     2 * x <= n - text_width (chosen_font P w (VInt n)) < 2 * x + 2 /\
     2 * y <= n - text_height (chosen_font P w (VInt n)) < 2 * y + 2) /\
  (forall l t r b, ink_box n (chosen_font P w (VInt n)) = (l, t, r, b) ->
     (n < text_width (chosen_font P w (VInt n)) ->
      fst (anchor n (chosen_font P w (VInt n))) < 0 /\
      exists px, l <= px < r /\ ~ 0 <= px < n) /\
     (n < text_height (chosen_font P w (VInt n)) ->
      snd (anchor n (chosen_font P w (VInt n))) < 0 /\
      exists py, t <= py < b /\ ~ 0 <= py < n)).
Proof.
  intros Hn. set (font := chosen_font P w (VInt n)).
  split; [split; apply icon_size; lia |].
  split.
  { intros Hw. exists (wrote P w n filename). split.
    - apply create_icon_ok; [lia | exact Hw].
    - unfold wrote. simpl. apply lookup_insert_eq. }
  split.
  { intros x y [= <- <-]. split.
    - pose proof (Z.div_mod (n - text_width font) 2 ltac:(lia)).
      pose proof (Z.mod_pos_bound (n - text_width font) 2 ltac:(lia)). lia.
    - pose proof (Z.div_mod (n - text_height font) 2 ltac:(lia)).
      pose proof (Z.mod_pos_bound (n - text_height font) 2 ltac:(lia)). lia. }
  intros l t r b.
  unfold ink_box, anchor, text_width, text_height, textbbox, getbbox.
  destruct (getmask2 font "L") as [m [ox oy]]. simpl.
  set (tw := ox + mk_width m + 0 - (ox + 0)).
  set (th := oy + mk_height m + 0 - (oy + 0)).
  intros [= <- <- <- <-]. split.
  - intros Hwide. split; [apply Z.div_lt_upper_bound; lia |].
    destruct (Z_lt_le_dec (ox + (n - tw) / 2) 0).
    + exists (ox + (n - tw) / 2). unfold tw in *. lia.
    + exists (ox + mk_width m + (n - tw) / 2 - 1). unfold tw in *. lia.
  - intros Htall. split; [apply Z.div_lt_upper_bound; lia |].
    destruct (Z_lt_le_dec (oy + (n - th) / 2) 0).
    + exists (oy + (n - th) / 2). unfold th in *. lia.
    + exists (oy + mk_height m + (n - th) / 2 - 1). unfold th in *. lia.
Qed.

(** C3. When loading the font at the fixed path fails, whatever the error,
    the [try] statement yields the built-in default font and raises
    nothing. The call then does exactly what it does with the default font:
    the error of the font step appears nowhere in its outcome, the only
    exception it can still raise is the one of writing the file, and when
    the file can be written, a size by size image (size positive, so not
    empty) is saved. *)
Theorem font_failure_falls_back
    (P : Pillow) (w : World) (n k : Z) (filename : string) (e : exn) :
  0 < n ->
  font_size_of (VInt n) = Ok k ->
  fst (truetype P font_path k w) = Raise e ->
  select_font P (VInt n) w = (Ok (default_font P), w) /\
  create_icon P (VInt n) filename w =
    (save P (icon n (default_font P)) (icon_path filename) ;;
     print ("Created " +:+ filename)) w /\
  (forall e', fst (create_icon P (VInt n) filename w) = Raise e' ->
     wr_fault w (icon_path filename) = Some e') /\
  (wr_fault w (icon_path filename) = None ->
   exists w',
     create_icon P (VInt n) filename w = (Ok tt, w') /\
     files w' !! icon_path filename = Some (encode P (icon_path filename) (icon n (default_font P)))) /\
  (im_width (icon n (default_font P)) = n /\
   im_height (icon n (default_font P)) = n /\
   well_sized (icon n (default_font P)) /\
   is_Some (getpixel (icon n (default_font P)) 0 0)).
Proof.
  intros Hn Hk Hload.
  assert (Hraise : fst (try_body P (VInt n) w) = Raise e).
  { apply try_body_raises. right. exists k. split; assumption. }
  pose proof (chosen_font_default P (VInt n) w e Hraise) as Hfont.
  split; [rewrite select_font_total, Hfont; reflexivity |].
  split; [rewrite create_icon_run, Hfont by lia; reflexivity |].
  split.
  { intros e' H. destruct (wr_fault w (icon_path filename)) as [e0 |] eqn:E.
    - rewrite (create_icon_fail P n filename w e0) in H by (lia || exact E).
      simpl in H. congruence.
    - rewrite create_icon_ok in H by (lia || exact E). discriminate H. }
  split.
  { intros Hw. exists (wrote P w n filename). split.
    - apply create_icon_ok; [lia | exact Hw].
    - unfold wrote, icon_file. simpl. rewrite Hfont. apply lookup_insert_eq. }
  split; [apply icon_size; lia |]. split; [apply icon_size; lia |].
  split; [apply icon_size; lia |].
  rewrite getpixel_icon by lia. eexists. reflexivity.
Qed.


(** C4, as amended. For a positive size below 2^50 the pixel size handed to
    the font loader is 60% of the size with the fraction dropped, the floor
    of 3 * size / 5: [int] truncates, it does not round to nearest. *)
Theorem font_size_is_truncated (P : Pillow) (n : Z) :
  0 < n < 2 ^ 50 ->
  font_size_of (VInt n) = Ok (3 * n / 5) /\
  try_body P (VInt n) = truetype P font_path (3 * n / 5) /\
  rounded_60_percent n - 1 <= 3 * n / 5 <= rounded_60_percent n.
Proof.
  intros Hn. pose proof (font_size_of_trunc n Hn) as E.
  split; [exact E |]. split.
  - unfold try_body, bind, lift. rewrite E. reflexivity.
  - unfold rounded_60_percent.
    pose proof (Z.div_mod (3 * n) 5 ltac:(lia)).
    pose proof (Z.mod_pos_bound (3 * n) 5 ltac:(lia)).
    pose proof (Z.div_mod (6 * n + 5) 10 ltac:(lia)).
    pose proof (Z.mod_pos_bound (6 * n + 5) 10 ltac:(lia)).
    lia.
Qed.

(** C5. A call that returns has written exactly one file: the encoded
    size by size image, at the output directory joined with the file name,
    in place of whatever that path held; no other path changes. A run of
    the script that returns has written exactly the three files icon16.png,
    icon48.png and icon128.png, holding images of edge 16, 48 and 128. *)
Theorem one_file_per_call_three_per_run (P : Pillow) (w w' : World) :
  (forall n filename, 0 < n ->
     create_icon P (VInt n) filename w = (Ok tt, w') ->
     icon_path filename =
       "/Users/maciejorlowski/lumos/extension/icons/" +:+ filename /\
     files w' =
       <[icon_path filename := icon_file P w n filename]>
         (files w) /\
     files w' !! icon_path filename =
       Some (icon_file P w n filename) /\
     (forall p, p <> icon_path filename -> files w' !! p = files w !! p) /\
     im_width (icon n (chosen_font P w (VInt n))) = n /\
     im_height (icon n (chosen_font P w (VInt n))) = n) /\
  (main P w = (Ok tt, w') ->
   files w' =
     <[icon_path "icon128.png" := icon_file P w 128 "icon128.png"]>
       (<[icon_path "icon48.png" := icon_file P w 48 "icon48.png"]>
          (<[icon_path "icon16.png" := icon_file P w 16 "icon16.png"]>
             (files w))) /\
   dom (files w') =
     {[ icon_path "icon16.png"; icon_path "icon48.png"; icon_path "icon128.png" ]}
       ∪ dom (files w) /\
   (forall n, n = 16 \/ n = 48 \/ n = 128 ->
      im_width (icon n (chosen_font P w (VInt n))) = n /\
      im_height (icon n (chosen_font P w (VInt n))) = n)).
Proof.
  split.
  - intros n filename Hn Hrun.
    destruct (wr_fault w (icon_path filename)) as [e |] eqn:E.
    { rewrite (create_icon_fail P n filename w e) in Hrun by (lia || exact E).
      discriminate Hrun. }
    rewrite create_icon_ok in Hrun by (lia || exact E).
    injection Hrun as <-. unfold wrote. cbn [files].
    split; [reflexivity |]. split; [reflexivity |].
    split; [apply lookup_insert_eq |].
    split; [intros p Hp; apply lookup_insert_ne; congruence |].
    split; apply icon_size; lia.
  - intros Hrun. apply main_ok_inv in Hrun as [_ ->].
    rewrite files_finished. split; [reflexivity |]. split.
    + rewrite !dom_insert_L. apply set_eq. intros p.
      rewrite !elem_of_union. tauto.
    + intros n Hn. split; apply icon_size; lia.
Qed.

(** C6. Nothing in [create_icon] or in the script catches a failure to
    write: the exception leaves [create_icon], the run ends with it, the
    calls that would follow write nothing and print nothing, and the final
    line is not printed. Of the files, only the one whose save failed may
    be left other than it was (emptied or partly written). *)
Theorem write_failure_aborts_run (P : Pillow) (w : World) (e : exn) :
  mkdir_fault w icons_dir = None ->
  (forall n filename, 0 < n ->
     wr_fault w (icon_path filename) = Some e ->
     exists w',
       create_icon P (VInt n) filename w = (Raise e, w') /\
       stdout w' = stdout w /\
       files w' =
         partial_alter (wr_after w (icon_path filename)) (icon_path filename) (files w)) /\
  (wr_fault w (icon_path "icon16.png") = Some e ->
   exists w',
     main P w = (Raise e, w') /\
     stdout w' = stdout w /\
     files w' =
       partial_alter (wr_after w (icon_path "icon16.png")) (icon_path "icon16.png")
         (files w)) /\
  (wr_fault w (icon_path "icon16.png") = None ->
   wr_fault w (icon_path "icon48.png") = Some e ->
   exists w',
     main P w = (Raise e, w') /\
     stdout w' = (stdout w ++ ["Created icon16.png"])%list /\
     files w' =
       partial_alter (wr_after w (icon_path "icon48.png")) (icon_path "icon48.png")
         (<[icon_path "icon16.png" := icon_file P w 16 "icon16.png"]> (files w))) /\
  (wr_fault w (icon_path "icon16.png") = None ->
   wr_fault w (icon_path "icon48.png") = None ->
   wr_fault w (icon_path "icon128.png") = Some e ->
   exists w',
     main P w = (Raise e, w') /\
     stdout w' = (stdout w ++ ["Created icon16.png"; "Created icon48.png"])%list /\
     files w' =
       partial_alter (wr_after w (icon_path "icon128.png")) (icon_path "icon128.png")
         (<[icon_path "icon48.png" := icon_file P w 48 "icon48.png"]>
            (<[icon_path "icon16.png" := icon_file P w 16 "icon16.png"]> (files w)))).
Proof.
  intros Hdir. split; [| split; [| split]].
  - intros n filename Hn Hw. eexists. split; [| split].
    + apply create_icon_fail; [lia | exact Hw].
    + reflexivity.
    + reflexivity.
  - intros H1. eexists. split; [| split].
    + rewrite main_run. unfold first_fault. rewrite Hdir, H1. reflexivity.
    + reflexivity.
    + reflexivity.
  - intros H1 H2. eexists. split; [| split].
    + rewrite main_run. unfold first_fault. rewrite Hdir, H1, H2. reflexivity.
    + reflexivity.
    + reflexivity.
  - intros H1 H2 H3. eexists. split; [| split].
    + rewrite main_run. unfold first_fault. rewrite Hdir, H1, H2, H3. reflexivity.
    + unfold spoiled, wrote. cbn [stdout]. rewrite <- app_assoc. reflexivity.
    + unfold spoiled. cbn [files].
      change (wr_after (wrote P (wrote P w 16 "icon16.png") 48 "icon48.png"))
        with (wr_after w).
      change (files (wrote P (wrote P w 16 "icon16.png") 48 "icon48.png"))
        with (<[icon_path "icon48.png" :=
                  icon_file P (wrote P w 16 "icon16.png") 48 "icon48.png"]>
                (<[icon_path "icon16.png" := icon_file P w 16 "icon16.png"]> (files w))).
      rewrite icon_file_wrote. reflexivity.
Qed.

(** C7. The contents of the three files depend on nothing but the font the
    [try] statement settles on: two runs that return, from any two worlds
    in which that font is the same for each of the three sizes, leave the
    same bytes in each of the three files; and running the script again on
    the world a run has left returns and leaves every file as it was. *)
Theorem runs_are_reproducible (P : Pillow) (w1 w2 w1' w2' : World) :
  (forall n, n = 16 \/ n = 48 \/ n = 128 ->
     fst (select_font P (VInt n) w1) = fst (select_font P (VInt n) w2)) ->
  main P w1 = (Ok tt, w1') ->
  main P w2 = (Ok tt, w2') ->
  (forall filename,
     filename = "icon16.png" \/ filename = "icon48.png" \/ filename = "icon128.png" ->
     is_Some (files w1' !! icon_path filename) /\
     files w1' !! icon_path filename = files w2' !! icon_path filename) /\
  (exists w1'', main P w1' = (Ok tt, w1'') /\ files w1'' = files w1').
Proof.
  intros Hfont Hrun1 Hrun2.
  apply main_ok_inv in Hrun1 as [Hf1 ->]. apply main_ok_inv in Hrun2 as [Hf2 ->].
  assert (Hsame : forall n, n = 16 \/ n = 48 \/ n = 128 ->
            chosen_font P w1 (VInt n) = chosen_font P w2 (VInt n)).
  { intros n Hn. specialize (Hfont n Hn). rewrite !select_font_total in Hfont.
    simpl in Hfont. congruence. }
  split.
  - intros filename Hfn. rewrite !files_finished. unfold icon_file.
    rewrite (Hsame 16), (Hsame 48), (Hsame 128) by lia.
    destruct Hfn as [-> | [-> | ->]].
    + rewrite !(lookup_insert_ne _ (icon_path "icon128.png")) by discriminate.
      rewrite !(lookup_insert_ne _ (icon_path "icon48.png")) by discriminate.
      rewrite !lookup_insert_eq. split; [eexists |]; reflexivity.
    + rewrite !(lookup_insert_ne _ (icon_path "icon128.png")) by discriminate.
      rewrite !lookup_insert_eq. split; [eexists |]; reflexivity.
    + rewrite !lookup_insert_eq. split; [eexists |]; reflexivity.
  - exists (finished P (finished P w1)). split.
    + apply main_ok. exact Hf1.
    + assert (Hkeep : forall size,
                chosen_font P (finished P w1) size = chosen_font P w1 size).
      { intros size. apply chosen_font_files; [| reflexivity]. rewrite files_finished.
        rewrite !lookup_insert_ne by apply icon_path_not_font. reflexivity. }
      rewrite (files_finished P (finished P w1)). unfold icon_file.
      rewrite !Hkeep. rewrite files_finished. unfold icon_file.
      apply map_eq. intros p. rewrite !lookup_insert.
      repeat case_decide; reflexivity.
Qed.

(** ** The claims at sample inputs *)

Lemma canvas_square_and_background_witness :
  0 < 16 /\
  getpixel (icon 16 (chosen_font sample_pillow font_world (VInt 16))) 0 0
    = Some (102, 126, 234).
Proof.
  split; [lia |].
  destruct (canvas_square_and_background sample_pillow font_world 16 "icon16.png"
              ltac:(lia)) as (_ & _ & _ & _ & _ & _ & Hbg).
  apply Hbg; [lia | lia | vm_compute; reflexivity].
Defined.

Lemma glyph_drawn_white_at_offsets_witness :
  exists img,
    draw_text (canvas 16) (6, 3) "L" "white"
              (chosen_font sample_pillow font_world (VInt 16)) = Ok img /\
    getpixel img 7 5 = Some (255, 255, 255).
Proof.
  destruct (glyph_drawn_white_at_offsets sample_pillow font_world 16 "icon16.png"
              1 2 5 11 ltac:(lia) ltac:(vm_compute; reflexivity))
    as (img & Hdraw & _ & _ & Hpx).
  exists img. split; [exact Hdraw |].
  apply Hpx; [lia | lia | vm_compute; reflexivity].
Defined.

Lemma font_failure_falls_back_witness :
  select_font sample_pillow (VInt 16) bare_world = (Ok sample_default, bare_world).
Proof.
  apply (font_failure_falls_back sample_pillow bare_world 16 9 "icon16.png"
           (OSError "cannot open resource"));
    [lia | vm_compute; reflexivity | vm_compute; reflexivity].
Defined.

(** C4, the claim as worded fails: for edge length 16 the loader is handed
    9, not round(9.6) = 10. *)
Lemma font_size_16_is_not_rounded :
  font_size_of (VInt 16) = Ok 9 /\
  rounded_60_percent 16 = 10 /\
  ~ (forall n, 0 < n -> font_size_of (VInt n) = Ok (rounded_60_percent n)).
Proof.
  split; [vm_compute; reflexivity |]. split; [vm_compute; reflexivity |].
  intros H. specialize (H 16 ltac:(lia)). vm_compute in H. discriminate H.
Qed.

Lemma font_size_is_truncated_witness :
  0 < 16 < 2 ^ 50 /\ font_size_of (VInt 16) = Ok 9.
Proof.
  split; [lia |].
  apply (font_size_is_truncated sample_pillow 16). lia.
Defined.

Lemma one_file_per_call_three_per_run_witness :
  dom (files (finished sample_pillow bare_world)) =
  {[ icon_path "icon16.png"; icon_path "icon48.png"; icon_path "icon128.png" ]}
    ∪ dom (files bare_world).
Proof.
  apply (one_file_per_call_three_per_run sample_pillow bare_world
           (finished sample_pillow bare_world)).
  apply main_ok. vm_compute. reflexivity.
Defined.

Lemma write_failure_aborts_run_witness :
  exists w',
    main sample_pillow full_world = (Raise (OSError "No space left on device"), w') /\
    stdout w' = ["Created icon16.png"] /\
    files w' !! icon_path "icon48.png" = Some [] /\
    files w' !! icon_path "icon128.png" = None.
Proof.
  destruct (write_failure_aborts_run sample_pillow full_world
              (OSError "No space left on device") ltac:(vm_compute; reflexivity))
    as (_ & _ & H48 & _).
  destruct (H48 ltac:(vm_compute; reflexivity) ltac:(vm_compute; reflexivity))
    as (w' & Hrun & Hout & Hfiles).
  exists w'. split; [exact Hrun |]. split; [exact Hout |].
  rewrite Hfiles. split; vm_compute; reflexivity.
Defined.

Lemma runs_are_reproducible_witness :
  files (finished sample_pillow bare_world) !! icon_path "icon48.png" =
  files (finished sample_pillow used_world) !! icon_path "icon48.png".
Proof.
  apply (runs_are_reproducible sample_pillow bare_world used_world
           (finished sample_pillow bare_world) (finished sample_pillow used_world)).
  - intros n [-> | [-> | ->]]; vm_compute; reflexivity.
  - apply main_ok. vm_compute. reflexivity.
  - apply main_ok. vm_compute. reflexivity.
  - right. left. reflexivity.
Defined.



Lemma no_clamping_of_oversized_glyph_witness :
  0 < 16 /\
  im_width (icon 16 (chosen_font huge_pillow bare_world (VInt 16))) = 16 /\
  fst (anchor 16 (chosen_font huge_pillow bare_world (VInt 16))) < 0.
Proof.
  split; [lia |].
  destruct (no_clamping_of_oversized_glyph huge_pillow bare_world 16 "icon16.png"
              ltac:(lia)) as ((Hw & _) & _ & _ & Hoff).
  split; [exact Hw |].
  apply (Hoff 0 (-2) 20 28); vm_compute; reflexivity.
Defined.

(** ** Further properties of the script *)

(** How a call can end: turned away on line 7 with the world as it was; a
    failed save, which may have spoiled the file at the output path; or a
    return. *)
Lemma create_icon_cases (P : Pillow) (size : value) (filename : string) (w : World) :
  (exists e, create_icon P size filename w = (Raise e, w)) \/
  (exists e, create_icon P size filename w = (Raise e, spoiled w (icon_path filename)) /\
             (wr_fault w (icon_path filename) = None -> size = VInt 0)) \/
  (exists n, size = VInt n /\ 0 < n /\
             wr_fault w (icon_path filename) = None /\
             create_icon P size filename w = (Ok tt, wrote P w n filename)).
Proof.
  destruct size as [n | s |].
  - destruct (Z_lt_le_dec n 0) as [Hneg | Hn].
    + left. eexists. unfold create_icon, bind, lift, Image_new.
      replace (n <? 0) with true by (symmetry; apply Z.ltb_lt; lia).
      reflexivity.
    + destruct (wr_fault w (icon_path filename)) as [e |] eqn:E.
      * right. left. exists e. split; [| discriminate].
        apply create_icon_fail; assumption.
      * destruct (Z.eq_dec n 0) as [-> | Hne].
        -- right. left. exists (empty_error P). split; [| reflexivity].
           apply create_icon_empty. exact E.
        -- right. right. exists n. repeat split; try assumption; try lia.
           apply create_icon_ok; [lia | assumption].
  - left. eexists. reflexivity.
  - left. eexists. reflexivity.
Qed.

Lemma icon_path_inj (a b : string) : icon_path a = icon_path b -> a = b.
Proof. unfold icon_path, icons_dir. simpl. intros [= H]. exact H. Qed.

Lemma blend_between (a old ink : Z) :
  0 <= a <= 255 -> 0 <= old <= ink -> ink <= 255 ->
  old <= blend a old ink <= ink.
Proof.
  intros Ha Hold Hink. unfold blend. rewrite !Z.shiftr_div_pow2 by lia.
  change (2 ^ 8) with 256.
  assert (Ht : 255 * old <= old * (255 - a) + ink * a <= 255 * ink) by nia.
  set (t := old * (255 - a) + ink * a) in *.
  Z.div_mod_to_equations. lia.
Qed.

Lemma coverage_byte (m : Mask) (i j : Z) :
  mask_ok m = true -> 0 <= coverage m i j <= 255.
Proof.
  intros Hok. unfold coverage.
  destruct ((0 <=? i) && (i <? mk_width m) && (0 <=? j) && (j <? mk_height m));
    [| lia].
  destruct (mk_rows m !! Z.to_nat j) as [row |] eqn:Erow; simpl; [| lia].
  destruct (row !! Z.to_nat i) as [a |] eqn:Ea; simpl; [| lia].
  unfold mask_ok in Hok. rewrite forallb_forall in Hok.
  apply list_elem_of_lookup_2, list_elem_of_In in Erow.
  specialize (Hok row Erow). rewrite forallb_forall in Hok.
  apply list_elem_of_lookup_2, list_elem_of_In in Ea.
  specialize (Hok a Ea). apply andb_true_iff in Hok. lia.
Qed.


(** X3. Whatever happens, the script has done a prefix of its three calls:
    the output is the status lines of the first k calls, followed by the
    closing line exactly when the run returned, and then k is 3; every file
    is as the first k calls leave it, except that the file of call k + 1,
    whose save failed, may be spoiled. If the directory cannot be made,
    nothing at all is written or printed. *)
Theorem main_runs_a_prefix (P : Pillow) (w w' : World) (r : result unit) :
  main P w = (r, w') ->
  (exists k : nat,
     (k <= 3)%nat /\
     (forall p, (forall c, script_calls !! k = Some c -> p <> icon_path (snd c)) ->
        files w' !! p = files_after P w (take k script_calls) !! p) /\
     stdout w' =
       (stdout w ++ lines_after (take k script_calls) ++
        match r with
        | Ok _ => ["All icons created successfully!"]
        | Raise _ => []
        end)%list /\
     match r with Ok _ => k = 3%nat | Raise _ => (k < 3)%nat end) /\
  (forall e, mkdir_fault w icons_dir = Some e -> r = Raise e /\ w' = w).
Proof.
  rewrite main_run. intros Hrun. split.
  - destruct (first_fault w) as [[[| [| [| k]]] e] |];
      injection Hrun as <- <-.
    + exists 0%nat. split; [lia |]. split; [reflexivity |]. split; [| lia].
      simpl. rewrite app_nil_r. reflexivity.
    + exists 0%nat. split; [lia |]. split; [| split; [| lia]].
      * intros p Hp. unfold spoiled. cbn [files].
        apply lookup_partial_alter_ne. intros E.
        exact (Hp (16, "icon16.png") eq_refl (eq_sym E)).
      * simpl. rewrite app_nil_r. reflexivity.
    + exists 1%nat. split; [lia |]. split; [| split; [| lia]].
      * intros p Hp. unfold spoiled. cbn [files].
        rewrite lookup_partial_alter_ne; [reflexivity |]. intros E.
        exact (Hp (48, "icon48.png") eq_refl (eq_sym E)).
      * reflexivity.
    + exists 2%nat. split; [lia |]. split; [| split; [| lia]].
      * intros p Hp. unfold spoiled. cbn [files].
        rewrite lookup_partial_alter_ne.
        -- change (files (wrote P (wrote P w 16 "icon16.png") 48 "icon48.png"))
             with (<[icon_path "icon48.png" :=
                       icon_file P (wrote P w 16 "icon16.png") 48 "icon48.png"]>
                     (<[icon_path "icon16.png" := icon_file P w 16 "icon16.png"]>
                        (files w))).
           rewrite icon_file_wrote. reflexivity.
        -- intros E. exact (Hp (128, "icon128.png") eq_refl (eq_sym E)).
      * unfold spoiled, wrote. cbn [stdout]. rewrite <- !app_assoc. reflexivity.
    + exists 3%nat. split; [lia |]. split; [| split; [| reflexivity]].
      * intros p _.
        change (files (finished P w) !! p = files_after P w (take 3 script_calls) !! p).
        rewrite files_finished. reflexivity.
      * unfold print, wrote. cbn [snd stdout]. rewrite <- !app_assoc. reflexivity.
  - intros e He. unfold first_fault in Hrun. rewrite He in Hrun.
    injection Hrun as <- <-. split; reflexivity.
Qed.

(** X4. For a positive size below 2^50 the pixel size asked of the font
    loader is never negative and always smaller than the edge, it is 0
    exactly for edge 1, and it never decreases when the edge grows. *)
Theorem font_size_bounds (n m : Z) :
  0 < n -> n <= m -> m < 2 ^ 50 ->
  exists k k',
    font_size_of (VInt n) = Ok k /\ font_size_of (VInt m) = Ok k' /\
    0 <= k < n /\ (k = 0 <-> n = 1) /\ k <= k'.
Proof.
  intros Hn Hnm Hm. exists (3 * n / 5), (3 * m / 5).
  rewrite !font_size_of_trunc by lia.
  split; [reflexivity |]. split; [reflexivity |].
  pose proof (Z.div_mod (3 * n) 5 ltac:(lia)).
  pose proof (Z.mod_pos_bound (3 * n) 5 ltac:(lia)).
  pose proof (Z.div_mod (3 * m) 5 ltac:(lia)).
  pose proof (Z.mod_pos_bound (3 * m) 5 ltac:(lia)).
  repeat split; lia.
Qed.

(** X7. However a call ends and whatever its arguments, it changes no file
    other than the one at the output directory joined with the file name;
    the font file in particular stays as it was, so the font a later call
    settles on is the one an earlier call would have had. *)
Theorem create_icon_writes_only_its_file
    (P : Pillow) (size : value) (filename : string) (w w' : World) (r : result unit) :
  create_icon P size filename w = (r, w') ->
  (forall p, p <> icon_path filename -> files w' !! p = files w !! p) /\
  files w' !! font_path = files w !! font_path /\
  (forall size', select_font P size' w' = (Ok (chosen_font P w size'), w')).
Proof.
  intros Hrun.
  assert (Hother : forall p, p <> icon_path filename -> files w' !! p = files w !! p).
  { destruct (create_icon_cases P size filename w)
      as [[e He] | [(e & He & _) | (n & -> & Hn & Hw & Hok)]].
    - rewrite He in Hrun. injection Hrun as <- <-. reflexivity.
    - rewrite He in Hrun. injection Hrun as <- <-.
      intros p Hp. unfold spoiled. cbn [files].
      apply lookup_partial_alter_ne. congruence.
    - rewrite Hok in Hrun. injection Hrun as <- <-.
      intros p Hp. unfold wrote. cbn [files]. apply lookup_insert_ne. congruence. }
  assert (Hfont : files w' !! font_path = files w !! font_path).
  { apply Hother. intros E. symmetry in E. exact (icon_path_not_font filename E). }
  assert (Hsearch : font_search w' = font_search w).
  { destruct (create_icon_cases P size filename w)
      as [[e He] | [(e & He & _) | (n & -> & Hn & Hw & Hok)]].
    - rewrite He in Hrun. injection Hrun as <- <-. reflexivity.
    - rewrite He in Hrun. injection Hrun as <- <-. reflexivity.
    - rewrite Hok in Hrun. injection Hrun as <- <-. reflexivity. }
  split; [exact Hother |]. split; [exact Hfont |].
  intros size'. rewrite select_font_total.
  rewrite (chosen_font_files P w' w size' Hfont); [reflexivity |].
  rewrite Hsearch. reflexivity.
Qed.

(** X8. Two calls in a row, on positive sizes, both able to write. With
    the same file name the second image replaces the first: one file
    remains, that of the second call, and both status lines are printed.
    With different file names the files left do not depend on the order of
    the two calls. *)
Theorem create_icon_twice
    (P : Pillow) (n1 n2 : Z) (f1 f2 : string) (w : World) :
  0 < n1 -> 0 < n2 ->
  wr_fault w (icon_path f1) = None ->
  wr_fault w (icon_path f2) = None ->
  exists w12 w21,
    (create_icon P (VInt n1) f1 ;; create_icon P (VInt n2) f2) w = (Ok tt, w12) /\
    (create_icon P (VInt n2) f2 ;; create_icon P (VInt n1) f1) w = (Ok tt, w21) /\
    stdout w12 = (stdout w ++ ["Created " +:+ f1; "Created " +:+ f2])%list /\
    (f1 = f2 ->
       files w12 = <[icon_path f2 := icon_file P w n2 f2]> (files w)) /\
    (f1 <> f2 -> files w12 = files w21).
Proof.
  intros H1 H2 Hw1 Hw2.
  exists (wrote P (wrote P w n1 f1) n2 f2), (wrote P (wrote P w n2 f2) n1 f1).
  split; [| split; [| split; [| split]]].
  - unfold bind. rewrite create_icon_ok by assumption.
    rewrite create_icon_ok by assumption. reflexivity.
  - unfold bind. rewrite create_icon_ok by assumption.
    rewrite create_icon_ok by assumption. reflexivity.
  - unfold wrote. cbn [stdout]. rewrite <- app_assoc. reflexivity.
  - intros ->. unfold wrote at 1. cbn [files]. rewrite icon_file_wrote.
    unfold wrote. cbn [files]. apply insert_insert_eq.
  - intros Hne. unfold wrote at 1 3. cbn [files]. rewrite !icon_file_wrote.
    unfold wrote. cbn [files]. apply insert_insert_ne.
    intros E. apply Hne. symmetry. apply icon_path_inj. exact E.
Qed.

(** X9. When the coverage values of the glyph are bytes, every pixel of the
    image a call draws is there and lies between the background and white,
    channel by channel: red in 102..255, green in 126..255, blue in
    234..255; outside the canvas there is no pixel. *)
Theorem icon_pixels_between_background_and_white
    (n : Z) (font : Font) (x y : Z) :
  mask_ok (fst (getmask2 font "L")) = true ->
  (0 <= x < n -> 0 <= y < n ->
   exists r g b,
     getpixel (icon n font) x y = Some (r, g, b) /\
     102 <= r <= 255 /\ 126 <= g <= 255 /\ 234 <= b <= 255) /\
  (0 <= n -> ~ (0 <= x < n /\ 0 <= y < n) -> getpixel (icon n font) x y = None).
Proof.
  intros Hok. split.
  - intros Hx Hy. rewrite getpixel_icon by assumption.
    unfold glyph_coverage. destruct (getmask2 font "L") as [m [ox oy]].
    simpl in Hok.
    destruct (under_mask _ _ _ _ _).
    + pose proof (coverage_byte m (x - ((anchor n font).1 + ox))
                    (y - ((anchor n font).2 + oy)) Hok) as Hc.
      set (a := coverage m _ _) in *.
      exists (blend a 102 255), (blend a 126 255), (blend a 234 255).
      split; [reflexivity |].
      pose proof (blend_between a 102 255 Hc ltac:(lia) ltac:(lia)).
      pose proof (blend_between a 126 255 Hc ltac:(lia) ltac:(lia)).
      pose proof (blend_between a 234 255 Hc ltac:(lia) ltac:(lia)).
      lia.
    + exists 102, 126, 234. split; [reflexivity | lia].
  - intros Hn Hout. apply getpixel_outside.
    destruct (icon_size n font Hn) as (-> & -> & _). exact Hout.
Qed.

(** X10. How far the ink is off the middle: the margin right of the ink's
    box exceeds the margin left of it by ((size - text_width) mod 2) minus
    twice bbox[0], and likewise below and above with bbox[1]. With
    bbox[0] = 0 and a glyph no wider than the canvas the box lies within
    the canvas from left to right, the two margins differing by at most
    one pixel; likewise from top to bottom. *)
Theorem ink_margins
    (n : Z) (font : Font) (b0 b1 b2 b3 l t r b : Z) :
  textbbox (0, 0) "L" font = (b0, b1, b2, b3) ->
  ink_box n font = (l, t, r, b) ->
  (n - r) - l = (n - (b2 - b0)) mod 2 - 2 * b0 /\
  (n - b) - t = (n - (b3 - b1)) mod 2 - 2 * b1 /\
  (b0 = 0 -> b2 - b0 <= n -> 0 <= l /\ r <= n /\ 0 <= (n - r) - l <= 1) /\
  (b1 = 0 -> b3 - b1 <= n -> 0 <= t /\ b <= n /\ 0 <= (n - b) - t <= 1).
Proof.
  intros Hbox Hink.
  assert (Ha : anchor n font = ((n - (b2 - b0)) / 2, (n - (b3 - b1)) / 2)).
  { unfold anchor, text_width, text_height. rewrite Hbox. reflexivity. }
  unfold ink_box in Hink. rewrite Ha in Hink.
  revert Hbox Hink. unfold textbbox. simpl.
  destruct (getbbox font "L") as [[[gl gt] gr] gb].
  intros [= <- <- <- <-] [= <- <- <- <-].
  pose proof (Z.div_mod (n - (gr + 0 - (gl + 0))) 2 ltac:(lia)).
  pose proof (Z.mod_pos_bound (n - (gr + 0 - (gl + 0))) 2 ltac:(lia)).
  pose proof (Z.div_mod (n - (gb + 0 - (gt + 0))) 2 ltac:(lia)).
  pose proof (Z.mod_pos_bound (n - (gb + 0 - (gt + 0))) 2 ltac:(lia)).
  repeat split; lia.
Qed.

Lemma blend_red_inked (a : Z) : 1 <= a <= 255 -> 103 <= blend a 102 255.
Proof.
  intros Ha. unfold blend. rewrite !Z.shiftr_div_pow2 by lia.
  change (2 ^ 8) with 256.
  set (t := 102 * (255 - a) + 255 * a).
  assert (26163 <= t) by (unfold t; lia).
  clearbody t. Z.div_mod_to_equations. lia.
Qed.

(** X11. The script returns normally exactly when the directory can be
    made and each of the three files can be written; when it raises, the
    exception is the one of a step that could not be done. *)
Theorem main_succeeds_iff_no_fault (P : Pillow) (w : World) :
  (fst (main P w) = Ok tt <->
   mkdir_fault w icons_dir = None /\
   wr_fault w (icon_path "icon16.png") = None /\
   wr_fault w (icon_path "icon48.png") = None /\
   wr_fault w (icon_path "icon128.png") = None) /\
  (forall e, fst (main P w) = Raise e ->
     mkdir_fault w icons_dir = Some e \/
     wr_fault w (icon_path "icon16.png") = Some e \/
     wr_fault w (icon_path "icon48.png") = Some e \/
     wr_fault w (icon_path "icon128.png") = Some e).
Proof.
  rewrite main_run. unfold first_fault.
  destruct (mkdir_fault w icons_dir) as [e0 |].
  { split; [split; [discriminate | intros [H _]; discriminate H] |].
    intros e [= ->]. left. reflexivity. }
  destruct (wr_fault w (icon_path "icon16.png")) as [e1 |].
  { split; [split; [discriminate | intros (_ & H & _); discriminate H] |].
    intros e [= ->]. right. left. reflexivity. }
  destruct (wr_fault w (icon_path "icon48.png")) as [e2 |].
  { split; [split; [discriminate | intros (_ & _ & H & _); discriminate H] |].
    intros e [= ->]. right. right. left. reflexivity. }
  destruct (wr_fault w (icon_path "icon128.png")) as [e3 |].
  { split; [split; [discriminate | intros (_ & _ & _ & H); discriminate H] |].
    intros e [= ->]. right. right. right. reflexivity. }
  split; [split; [intros _; repeat split | reflexivity] |].
  intros e H. discriminate H.
Qed.

(** X12. When the coverage values of the glyph are bytes, a pixel of the
    drawn canvas has the background colour exactly when the glyph puts no
    ink on it: any coverage from 1 up changes the pixel. *)
Theorem background_iff_no_ink (n : Z) (font : Font) (x y : Z) :
  mask_ok (fst (getmask2 font "L")) = true ->
  0 <= x < n -> 0 <= y < n ->
  (getpixel (icon n font) x y = Some background <-> inked n font x y = false).
Proof.
  intros Hok Hx Hy. rewrite getpixel_icon by assumption.
  unfold inked, glyph_coverage. destruct (getmask2 font "L") as [m [ox oy]].
  simpl in Hok.
  pose proof (coverage_byte m (x - ((anchor n font).1 + ox))
                (y - ((anchor n font).2 + oy)) Hok) as Hc.
  destruct (under_mask m _ _ x y) eqn:Eu.
  - set (a := coverage m _ _) in *. split.
    + intros [= Hred _ _]. apply negb_false_iff, Z.eqb_eq.
      destruct (Z.eq_dec a 0) as [E | E]; [exact E | exfalso].
      pose proof (blend_red_inked a ltac:(lia)). lia.
    + intros H. apply negb_false_iff, Z.eqb_eq in H. rewrite H.
      rewrite blend_px_zero_background. reflexivity.
  - rewrite coverage_outside.
    + split; reflexivity.
    + rewrite <- under_mask_spec, Eu. discriminate.
Qed.

(** ** The further properties at sample inputs *)


Lemma main_runs_a_prefix_witness :
  exists k : nat,
    (k <= 3)%nat /\
    (forall p, (forall c, script_calls !! k = Some c -> p <> icon_path (snd c)) ->
       files (snd (main sample_pillow full_world)) !! p =
       files_after sample_pillow full_world (take k script_calls) !! p) /\
    stdout (snd (main sample_pillow full_world)) =
      (stdout full_world ++ lines_after (take k script_calls) ++ [])%list /\
    (k < 3)%nat.
Proof.
  apply (main_runs_a_prefix sample_pillow full_world
           (snd (main sample_pillow full_world))
           (Raise (OSError "No space left on device"))).
  vm_compute. reflexivity.
Defined.

Lemma font_size_bounds_witness :
  exists k k',
    font_size_of (VInt 1) = Ok k /\ font_size_of (VInt 128) = Ok k' /\
    0 <= k < 1 /\ (k = 0 <-> 1 = 1) /\ k <= k'.
Proof. apply (font_size_bounds 1 128); lia. Defined.

Lemma create_icon_writes_only_its_file_witness :
  files (wrote sample_pillow font_world 16 "icon16.png") !! font_path =
  files font_world !! font_path.
Proof.
  apply (create_icon_writes_only_its_file sample_pillow (VInt 16) "icon16.png"
           font_world (wrote sample_pillow font_world 16 "icon16.png") (Ok tt)).
  apply create_icon_ok; [lia | reflexivity].
Defined.

Lemma create_icon_twice_witness :
  exists w12 w21,
    (create_icon sample_pillow (VInt 16) "a.png" ;;
     create_icon sample_pillow (VInt 48) "b.png") bare_world = (Ok tt, w12) /\
    (create_icon sample_pillow (VInt 48) "b.png" ;;
     create_icon sample_pillow (VInt 16) "a.png") bare_world = (Ok tt, w21) /\
    files w12 = files w21.
Proof.
  destruct (create_icon_twice sample_pillow 16 48 "a.png" "b.png" bare_world
              ltac:(lia) ltac:(lia) eq_refl eq_refl)
    as (w12 & w21 & H12 & H21 & _ & _ & Hcomm).
  exists w12, w21. split; [exact H12 |]. split; [exact H21 |].
  apply Hcomm. discriminate.
Defined.

Lemma icon_pixels_between_background_and_white_witness :
  exists r g b,
    getpixel (icon 16 sample_default) 5 7 = Some (r, g, b) /\
    102 <= r <= 255 /\ 126 <= g <= 255 /\ 234 <= b <= 255.
Proof.
  apply (icon_pixels_between_background_and_white 16 sample_default 5 7);
    [vm_compute; reflexivity | lia | lia].
Defined.

Lemma ink_margins_witness :
  (16 - 11) - 7 = (16 - (5 - 1)) mod 2 - 2 * 1.
Proof.
  apply (ink_margins 16 (chosen_font sample_pillow font_world (VInt 16))
           1 2 5 11 7 5 11 14);
    vm_compute; reflexivity.
Defined.

Lemma background_iff_no_ink_witness :
  getpixel (icon 16 sample_default) 5 4 = Some background <->
  inked 16 sample_default 5 4 = false.
Proof.
  apply (background_iff_no_ink 16 sample_default 5 4);
    [vm_compute; reflexivity | lia | lia].
Defined.
